(** * Tethering JNI bootstrap: [JNI_OnLoad] of Tethering/jni/onload.cpp

    The translation unit consists of one exported function.  It asks the
    Java VM for a [JNIEnv] at JNI version 1.6, logs and bails out when that
    fails, and otherwise calls four external registration routines one after
    the other, giving up at the first negative answer.

    Everything the function does is a call into code that lives elsewhere
    (the VM, liblog, the four registration routines), so the function is
    embedded as an interaction tree over the calls it can make.  A host is
    any deterministic, state-carrying implementation of those calls; running
    the tree against a host yields the returned [jint] together with the
    list of calls that were made and the answers they got. *)

From Stdlib Require Import ZArith List String Bool Lia.
From ITree Require Import ITree.
Import ListNotations.
Import ITreeNotations.

Local Open Scope string_scope.
Local Open Scope list_scope.
Local Open Scope Z_scope.
Local Open Scope itree_scope.

(** ** Constants and handles *)

(** [jint] and C [int] are 32-bit signed integers.  The function only ever
    compares them with constants and returns constants, so they are carried
    as [Z]; every statement below holds for all of [Z], hence for the 32-bit
    range. *)
Definition jint := Z.

(** Pointers handed around by the VM; only their identity matters. *)
Definition JavaVM := N.
Definition JNIEnv := N.

(** The values jni.h gives to the three macros the function uses. *)
Definition JNI_OK : jint := 0.
Definition JNI_ERR : jint := -1.
Definition JNI_VERSION_1_6 : jint := 0x00010006.

(** android/log.h: [ANDROID_LOG_FATAL] is priority 7. *)
Definition ANDROID_LOG_FATAL : Z := 7.

(** [#define LOG_TAG "TetheringJni"] *)
Definition LOG_TAG : string := "TetheringJni".

(** ** The calls the translation unit can make

    One constructor per external function that onload.cpp calls or
    declares.  [GetEnv] answers with the status and the [JNIEnv*] it stored
    through its out-parameter; every other call answers with a C [int]. *)
Variant hostE : Type -> Type :=
| GetEnv (vm : JavaVM) (version : jint) : hostE (jint * JNIEnv)
| __android_log_print (prio : Z) (tag : string) (fmt : string) : hostE Z
| register_com_android_net_module_util_BpfMap
    (env : JNIEnv) (class_name : string) : hostE Z
| register_com_android_net_module_util_TcUtils
    (env : JNIEnv) (class_name : string) : hostE Z
| register_com_android_networkstack_tethering_BpfCoordinator
    (env : JNIEnv) : hostE Z
| register_com_android_networkstack_tethering_BpfUtils
    (env : JNIEnv) : hostE Z
| register_com_android_networkstack_tethering_util_TetheringUtils
    (env : JNIEnv) : hostE Z.

(** ** The function *)

(** The exported [JNI_OnLoad], statement by statement.  Its second
    parameter (a [void] pointer) is unnamed and unused in the source. *)
Definition JNI_OnLoad (vm : JavaVM) : itree hostE jint :=
  '(status, env) <- ITree.trigger (GetEnv vm JNI_VERSION_1_6) ;;
  if negb (status =? JNI_OK) then
    ITree.trigger
      (__android_log_print ANDROID_LOG_FATAL LOG_TAG "ERROR: GetEnv failed") ;;
    Ret JNI_ERR
  else
    r1 <- ITree.trigger
            (register_com_android_networkstack_tethering_util_TetheringUtils env) ;;
    if r1 <? 0 then Ret JNI_ERR else
    r2 <- ITree.trigger
            (register_com_android_net_module_util_BpfMap env
               "com/android/networkstack/tethering/util/BpfMap") ;;
    if r2 <? 0 then Ret JNI_ERR else
    r3 <- ITree.trigger
            (register_com_android_net_module_util_TcUtils env
               "com/android/networkstack/tethering/util/TcUtils") ;;
    if r3 <? 0 then Ret JNI_ERR else
    r4 <- ITree.trigger
            (register_com_android_networkstack_tethering_BpfCoordinator env) ;;
    if r4 <? 0 then Ret JNI_ERR else
    Ret JNI_VERSION_1_6.

(** ** Hosts and runs *)

(** A host implements every call; [W] is whatever state it keeps between
    calls (the VM, the log, the registered tables). *)
Record Host (W : Type) : Type := MkHost {
  respond : forall T, hostE T -> W -> W * T
}.
Arguments MkHost {W} _.
Arguments respond {W} _ {T} _ _.

(** One entry of a run's call log: the call and the answer it received. *)
Variant invocation : Type :=
| Invoked {T : Type} (call : hostE T) (answer : T).

Definition trace := list invocation.

(** Runs a tree against a host.  Each node of the tree costs one unit of
    fuel; [None] means the fuel ran out before the tree returned. *)
Fixpoint run {W R : Type} (host : Host W) (fuel : nat)
    (t : itree hostE R) (w : W) : option (trace * W * R) :=
  match fuel with
  | O => None
  | S fuel' =>
    match observe t with
    | RetF r => Some ([], w, r)
    | TauF u => run host fuel' u w
    | VisF e k =>
      let (w', x) := respond host e w in
      match run host fuel' (k x) w' with
      | Some (tr, w'', r) => Some (Invoked e x :: tr, w'', r)
      | None => None
      end
    end
  end.

(** What the VM loader sees of a load attempt, and what the host saw. *)
Definition returned {W} (host : Host W) (fuel : nat) (vm : JavaVM) (w : W)
  : option jint :=
  match run host fuel (JNI_OnLoad vm) w with
  | Some (_, _, r) => Some r
  | None => None
  end.

Definition calls {W} (host : Host W) (fuel : nat) (vm : JavaVM) (w : W)
  : trace :=
  match run host fuel (JNI_OnLoad vm) w with
  | Some (tr, _, _) => tr
  | None => []
  end.

Definition final_state {W} (host : Host W) (fuel : nat) (vm : JavaVM) (w : W)
  : option W :=
  match run host fuel (JNI_OnLoad vm) w with
  | Some (_, w', _) => Some w'
  | None => None
  end.

(** ** A scripted host

    The test double of the usual unit test: [GetEnv] gives a fixed answer,
    logging returns a fixed value, and the registration routines, whichever
    is called, answer with the next entry of a script (0 once the script is
    used up). *)
Record Mock : Type := MkMock {
  getenv_answer : jint * JNIEnv;
  log_answer : Z;
  script : list Z
}.

Definition next_result (m : Mock) : Mock * Z :=
  match script m with
  | [] => (m, 0)
  | z :: rest => (MkMock (getenv_answer m) (log_answer m) rest, z)
  end.

Definition mock_respond (T : Type) (e : hostE T) : Mock -> Mock * T :=
  match e in hostE T return Mock -> Mock * T with
  | GetEnv _ _ => fun m => (m, getenv_answer m)
  | __android_log_print _ _ _ => fun m => (m, log_answer m)
  | register_com_android_net_module_util_BpfMap _ _ => next_result
  | register_com_android_net_module_util_TcUtils _ _ => next_result
  | register_com_android_networkstack_tethering_BpfCoordinator _ => next_result
  | register_com_android_networkstack_tethering_BpfUtils _ => next_result
  | register_com_android_networkstack_tethering_util_TetheringUtils _ => next_result
  end.

Definition mock_host : Host Mock := MkHost mock_respond.

(** A mock whose [GetEnv] answers [status] with handle 42 and whose
    registration routines follow [results]. *)
Definition scripted (status : jint) (results : list Z) : Mock :=
  MkMock (status, 42%N) 0 results.

(** What the registration routines of a mock get to return when at most
    [n] of them are called and the caller stops at the first negative
    result: the entries of the script up to and including that result. *)
Fixpoint results_until_failure (n : nat) (sc : list Z) : list Z :=
  match n with
  | O => []
  | S n' =>
    match sc with
    | [] => 0 :: results_until_failure n' []
    | z :: rest =>
      if z <? 0 then [z] else z :: results_until_failure n' rest
    end
  end.

(** ** Reading a call log *)

(** The answer the host gives to the one [GetEnv] request the function
    makes, which is its first call and so meets the host in its initial
    state. *)
Definition GetEnv_answer {W} (host : Host W) (vm : JavaVM) (w : W)
  : jint * JNIEnv :=
  snd (respond host (GetEnv vm JNI_VERSION_1_6) w).

Definition GetEnv_status {W} (host : Host W) (vm : JavaVM) (w : W) : jint :=
  fst (GetEnv_answer host vm w).

Definition GetEnv_env {W} (host : Host W) (vm : JavaVM) (w : W) : JNIEnv :=
  snd (GetEnv_answer host vm w).

(** The entries of a list on which [f] is defined, in order. *)
Fixpoint collect {A B : Type} (f : A -> option B) (l : list A) : list B :=
  match l with
  | [] => []
  | a :: l' =>
    match f a with
    | Some b => b :: collect f l'
    | None => collect f l'
    end
  end.

(** The call itself, when the entry is a call of one of the five declared
    registration routines. *)
Definition registration_call (i : invocation) : option (hostE Z) :=
  match i with
  | Invoked e _ =>
    match e with
    | GetEnv _ _ => None
    | __android_log_print _ _ _ => None
    | register_com_android_net_module_util_BpfMap env n =>
        Some (register_com_android_net_module_util_BpfMap env n)
    | register_com_android_net_module_util_TcUtils env n =>
        Some (register_com_android_net_module_util_TcUtils env n)
    | register_com_android_networkstack_tethering_BpfCoordinator env =>
        Some (register_com_android_networkstack_tethering_BpfCoordinator env)
    | register_com_android_networkstack_tethering_BpfUtils env =>
        Some (register_com_android_networkstack_tethering_BpfUtils env)
    | register_com_android_networkstack_tethering_util_TetheringUtils env =>
        Some (register_com_android_networkstack_tethering_util_TetheringUtils env)
    end
  end.

(** The value a registration routine returned. *)
Definition registration_result (i : invocation) : option Z :=
  match i with
  | Invoked e x =>
    match e in hostE T return T -> option Z with
    | GetEnv _ _ => fun _ => None
    | __android_log_print _ _ _ => fun _ => None
    | register_com_android_net_module_util_BpfMap _ _ => Some
    | register_com_android_net_module_util_TcUtils _ _ => Some
    | register_com_android_networkstack_tethering_BpfCoordinator _ => Some
    | register_com_android_networkstack_tethering_BpfUtils _ => Some
    | register_com_android_networkstack_tethering_util_TetheringUtils _ => Some
    end x
  end.

(** Priority, tag and text of a log call. *)
Definition log_line (i : invocation) : option (Z * string * string) :=
  match i with
  | Invoked e _ =>
    match e with
    | __android_log_print prio tag fmt => Some (prio, tag, fmt)
    | _ => None
    end
  end.

Definition registration_calls (tr : trace) : list (hostE Z) :=
  collect registration_call tr.

Definition registration_results (tr : trace) : list Z :=
  collect registration_result tr.

Definition log_lines (tr : trace) : list (Z * string * string) :=
  collect log_line tr.

(** VM handle and version of a [GetEnv] request. *)
Definition GetEnv_request (i : invocation) : option (JavaVM * jint) :=
  match i with
  | Invoked e _ =>
    match e with
    | GetEnv vm version => Some (vm, version)
    | _ => None
    end
  end.

Definition GetEnv_requests (tr : trace) : list (JavaVM * jint) :=
  collect GetEnv_request tr.

(** The four call sites of the function, in program order, with the
    arguments they pass when the environment handle is [env]. *)
Definition registration_sequence (env : JNIEnv) : list (hostE Z) :=
  [ register_com_android_networkstack_tethering_util_TetheringUtils env;
    register_com_android_net_module_util_BpfMap env
      "com/android/networkstack/tethering/util/BpfMap";
    register_com_android_net_module_util_TcUtils env
      "com/android/networkstack/tethering/util/TcUtils";
    register_com_android_networkstack_tethering_BpfCoordinator env ].

(** The one line the function can log. *)
Definition GetEnv_failed_line : Z * string * string :=
  (ANDROID_LOG_FATAL, LOG_TAG, "ERROR: GetEnv failed").

(** ** The shapes a load attempt can take

    Six paths lead through the function.  [load_attempt vm a tr r] lists
    them: with [a] the answer to [GetEnv], the call log is [tr] and the
    function returns [r]. *)
Inductive load_attempt (vm : JavaVM) : jint * JNIEnv -> trace -> jint -> Prop :=
| attempt_no_env st env x :
    st <> JNI_OK ->
    load_attempt vm (st, env)
      [ Invoked (GetEnv vm JNI_VERSION_1_6) (st, env);
        Invoked (__android_log_print ANDROID_LOG_FATAL LOG_TAG
                   "ERROR: GetEnv failed") x ]
      JNI_ERR
| attempt_fail_1 env r1 :
    r1 < 0 ->
    load_attempt vm (JNI_OK, env)
      [ Invoked (GetEnv vm JNI_VERSION_1_6) (JNI_OK, env);
        Invoked (register_com_android_networkstack_tethering_util_TetheringUtils env) r1 ]
      JNI_ERR
| attempt_fail_2 env r1 r2 :
    0 <= r1 -> r2 < 0 ->
    load_attempt vm (JNI_OK, env)
      [ Invoked (GetEnv vm JNI_VERSION_1_6) (JNI_OK, env);
        Invoked (register_com_android_networkstack_tethering_util_TetheringUtils env) r1;
        Invoked (register_com_android_net_module_util_BpfMap env
                   "com/android/networkstack/tethering/util/BpfMap") r2 ]
      JNI_ERR
| attempt_fail_3 env r1 r2 r3 :
    0 <= r1 -> 0 <= r2 -> r3 < 0 ->
    load_attempt vm (JNI_OK, env)
      [ Invoked (GetEnv vm JNI_VERSION_1_6) (JNI_OK, env);
        Invoked (register_com_android_networkstack_tethering_util_TetheringUtils env) r1;
        Invoked (register_com_android_net_module_util_BpfMap env
                   "com/android/networkstack/tethering/util/BpfMap") r2;
        Invoked (register_com_android_net_module_util_TcUtils env
                   "com/android/networkstack/tethering/util/TcUtils") r3 ]
      JNI_ERR
| attempt_fail_4 env r1 r2 r3 r4 :
    0 <= r1 -> 0 <= r2 -> 0 <= r3 -> r4 < 0 ->
    load_attempt vm (JNI_OK, env)
      [ Invoked (GetEnv vm JNI_VERSION_1_6) (JNI_OK, env);
        Invoked (register_com_android_networkstack_tethering_util_TetheringUtils env) r1;
        Invoked (register_com_android_net_module_util_BpfMap env
                   "com/android/networkstack/tethering/util/BpfMap") r2;
        Invoked (register_com_android_net_module_util_TcUtils env
                   "com/android/networkstack/tethering/util/TcUtils") r3;
        Invoked (register_com_android_networkstack_tethering_BpfCoordinator env) r4 ]
      JNI_ERR
| attempt_loaded env r1 r2 r3 r4 :
    0 <= r1 -> 0 <= r2 -> 0 <= r3 -> 0 <= r4 ->
    load_attempt vm (JNI_OK, env)
      [ Invoked (GetEnv vm JNI_VERSION_1_6) (JNI_OK, env);
        Invoked (register_com_android_networkstack_tethering_util_TetheringUtils env) r1;
        Invoked (register_com_android_net_module_util_BpfMap env
                   "com/android/networkstack/tethering/util/BpfMap") r2;
        Invoked (register_com_android_net_module_util_TcUtils env
                   "com/android/networkstack/tethering/util/TcUtils") r3;
        Invoked (register_com_android_networkstack_tethering_BpfCoordinator env) r4 ]
      JNI_VERSION_1_6.

(** * Properties *)

(** ** How [run] steps through a tree *)

Section RunSteps.
Context {W R : Type} (host : Host W).

Lemma run_Ret (fuel : nat) (r : R) (w : W) :
  run host (S fuel) (Ret r) w = Some ([], w, r).
Proof. reflexivity. Qed.

(** A call followed by the rest of the function: the host answers, the
    call is logged, and the run goes on with the answer. *)
Lemma run_call {T : Type} (fuel : nat) (e : hostE T)
    (k : T -> itree hostE R) (w : W) :
  run host (S fuel) (ITree.bind (ITree.trigger e) k) w =
  match run host fuel (k (snd (respond host e w))) (fst (respond host e w)) with
  | Some (tr, w'', r) => Some (Invoked e (snd (respond host e w)) :: tr, w'', r)
  | None => None
  end.
Proof.
  cbn. destruct (respond host e w) as [w' x]. cbn.
  destruct fuel; reflexivity.
Qed.
End RunSteps.

(** One call of the function: rewrite with [run_call] and name the host's
    new state and answer. *)
Ltac call_answers w w' x :=
  rewrite run_call;
  match goal with
  | |- context [respond ?h ?e w] => destruct (respond h e w) as [w' x]
  end;
  cbn [fst snd].

(** The function returns here, on the path built so far. *)
Ltac returns_here :=
  rewrite run_Ret; do 3 eexists; split; [reflexivity | constructor; assumption].

(** ** Every run takes one of the six paths *)

(** Six units of fuel are enough for any host: the function returns, and
    its call log and result have one of the six shapes. *)
Lemma run_JNI_OnLoad {W} (host : Host W) (w : W) (vm : JavaVM) (fuel : nat) :
  (6 <= fuel)%nat ->
  exists tr w' r,
    run host fuel (JNI_OnLoad vm) w = Some (tr, w', r) /\
    load_attempt vm (GetEnv_answer host vm w) tr r.
Proof.
  intros Hfuel.
  do 6 (destruct fuel as [|fuel]; [lia|]). clear Hfuel.
  unfold GetEnv_answer, JNI_OnLoad.
  rewrite run_call. unfold jint in *.
  destruct (respond host _ w) as [w0 [st env]]; cbn [fst snd].
  destruct (Z.eqb_spec st JNI_OK) as [->|Hst]; cbn [negb].
  2:{ rewrite run_call, run_Ret.
      destruct (respond host _ w0) as [w1 x]; cbn [fst snd].
      do 3 eexists; split; [reflexivity|]. now constructor. }
  call_answers w0 w1 r1. destruct (Z.ltb_spec r1 0); [returns_here|].
  call_answers w1 w2 r2. destruct (Z.ltb_spec r2 0); [returns_here|].
  call_answers w2 w3 r3. destruct (Z.ltb_spec r3 0); [returns_here|].
  call_answers w3 w4 r4. destruct (Z.ltb_spec r4 0); returns_here.
Qed.

(** The same in terms of what the loader and the host observe. *)
Lemma load_paths {W} (host : Host W) (w : W) (vm : JavaVM) (fuel : nat) :
  (6 <= fuel)%nat ->
  exists a tr r,
    GetEnv_answer host vm w = a /\
    calls host fuel vm w = tr /\
    returned host fuel vm w = Some r /\
    load_attempt vm a tr r.
Proof.
  intros Hfuel.
  destruct (run_JNI_OnLoad host w vm fuel Hfuel) as (tr & w' & r & Hrun & Hp).
  exists (GetEnv_answer host vm w), tr, r.
  unfold calls, returned. rewrite Hrun. auto.
Qed.

(** Splits a goal about a run into the six paths. *)
Ltac by_paths host w vm fuel Hfuel :=
  let a := fresh "a" in let tr := fresh "tr" in let r := fresh "r" in
  let Ha := fresh "Ha" in let Htr := fresh "Htr" in let Hr := fresh "Hr" in
  let Hp := fresh "Hp" in
  destruct (load_paths host w vm fuel Hfuel) as (a & tr & r & Ha & Htr & Hr & Hp);
  unfold GetEnv_status, GetEnv_env in *;
  rewrite ?Ha, ?Htr, ?Hr in *; clear Ha Htr Hr;
  destruct Hp; cbn in *.

(** ** Successful load *)

(** C1.  When [GetEnv] answers [JNI_OK] and no registration routine that
    is called returns a negative value, [JNI_OnLoad] returns
    [JNI_VERSION_1_6], having made the four registration calls.  The
    scripted results [0; 0; 0; 0] are the instance checked below. *)
Theorem JNI_OnLoad_success {W} (host : Host W) (w : W) (vm : JavaVM)
    (fuel : nat) :
  (6 <= fuel)%nat ->
  GetEnv_status host vm w = JNI_OK ->
  Forall (fun z => 0 <= z) (registration_results (calls host fuel vm w)) ->
  returned host fuel vm w = Some JNI_VERSION_1_6 /\
  registration_calls (calls host fuel vm w) =
    registration_sequence (GetEnv_env host vm w).
Proof.
  intros Hfuel Hok Hall.
  by_paths host w vm fuel Hfuel; auto; try contradiction;
    repeat match goal with
           | H : Forall _ (_ :: _) |- _ => inversion H; subst; clear H
           end; lia.
Qed.

Lemma JNI_OnLoad_success_witness :
  returned mock_host 6 1%N (scripted JNI_OK [0; 0; 0; 0])
    = Some JNI_VERSION_1_6 /\
  registration_calls (calls mock_host 6 1%N (scripted JNI_OK [0; 0; 0; 0]))
    = registration_sequence 42%N.
Proof.
  apply (JNI_OnLoad_success mock_host (scripted JNI_OK [0; 0; 0; 0]) 1%N 6).
  - lia.
  - reflexivity.
  - vm_compute. repeat constructor; discriminate.
Defined.

(** The scenario with any handles and any value returned by the logger. *)
Example scenario_all_succeed (vm : JavaVM) (env : JNIEnv) (l : Z) :
  returned mock_host 6 vm (MkMock (JNI_OK, env) l [0; 0; 0; 0])
    = Some JNI_VERSION_1_6.
Proof. reflexivity. Qed.

(** ** A registration fails *)

(** Clears the bookkeeping left by a case split on a concrete call log. *)
Ltac tidy :=
  repeat match goal with
         | H : Some _ = Some _ |- _ => inversion H; subst; clear H
         | H : None = Some _ |- _ => discriminate H
         | H : Some _ = None |- _ => discriminate H
         | H : Forall _ (_ :: _) |- _ => inversion H; subst; clear H
         | H : _ /\ _ |- _ => destruct H
         end.

(** C2.  If the [N]th registration call (1 to 4) returns a negative value
    and the earlier ones did not, [JNI_OnLoad] returns [JNI_ERR] and the
    registration calls made are exactly the first [N] of the fixed
    sequence, so none after the [N]th.  The scripted results
    [0; -1; _; _] are the instance [N = 2] checked below. *)
Theorem JNI_OnLoad_registration_failure {W} (host : Host W) (w : W)
    (vm : JavaVM) (fuel : nat) (N : nat) (z : Z) :
  (6 <= fuel)%nat ->
  (1 <= N <= 4)%nat ->
  nth_error (registration_results (calls host fuel vm w)) (N - 1) = Some z ->
  z < 0 ->
  Forall (fun y => 0 <= y)
         (firstn (N - 1) (registration_results (calls host fuel vm w))) ->
  returned host fuel vm w = Some JNI_ERR /\
  registration_calls (calls host fuel vm w) =
    firstn N (registration_sequence (GetEnv_env host vm w)).
Proof.
  intros Hfuel HN Hnth Hz Hpre.
  destruct N as [|[|[|[|[|N]]]]]; try lia;
    by_paths host w vm fuel Hfuel; tidy; try lia; auto.
Qed.

Lemma JNI_OnLoad_registration_failure_witness :
  returned mock_host 6 1%N (scripted JNI_OK [0; -1; 5; -7]) = Some JNI_ERR /\
  registration_calls (calls mock_host 6 1%N (scripted JNI_OK [0; -1; 5; -7]))
    = firstn 2 (registration_sequence 42%N).
Proof.
  apply (JNI_OnLoad_registration_failure
           mock_host (scripted JNI_OK [0; -1; 5; -7]) 1%N 6 2 (-1)).
  - lia.
  - lia.
  - reflexivity.
  - lia.
  - vm_compute. repeat constructor; discriminate.
Defined.

(** The scenario with anything in the two positions that are never
    reached: only the first two routines are called. *)
Example scenario_second_fails (vm : JavaVM) (env : JNIEnv) (l a b : Z) :
  returned mock_host 6 vm (MkMock (JNI_OK, env) l [0; -1; a; b])
    = Some JNI_ERR /\
  registration_calls (calls mock_host 6 vm (MkMock (JNI_OK, env) l [0; -1; a; b]))
    = [ register_com_android_networkstack_tethering_util_TetheringUtils env;
        register_com_android_net_module_util_BpfMap env
          "com/android/networkstack/tethering/util/BpfMap" ] /\
  option_map script
    (final_state mock_host 6 vm (MkMock (JNI_OK, env) l [0; -1; a; b]))
    = Some [a; b].
Proof. repeat split. Qed.

(** ** [GetEnv] fails *)

(** C3.  When the [GetEnv] request at [JNI_VERSION_1_6] does not answer
    [JNI_OK], [JNI_OnLoad] returns [JNI_ERR], logs exactly one line, at
    fatal priority, and calls no registration routine. *)
Theorem JNI_OnLoad_GetEnv_failure {W} (host : Host W) (w : W) (vm : JavaVM)
    (fuel : nat) :
  (6 <= fuel)%nat ->
  GetEnv_status host vm w <> JNI_OK ->
  returned host fuel vm w = Some JNI_ERR /\
  log_lines (calls host fuel vm w) = [GetEnv_failed_line] /\
  registration_calls (calls host fuel vm w) = [].
Proof.
  intros Hfuel Hst.
  by_paths host w vm fuel Hfuel; try contradiction; auto.
Qed.

Lemma JNI_OnLoad_GetEnv_failure_witness :
  GetEnv_status mock_host 1%N (scripted (-3) [0; 0; 0; 0]) <> JNI_OK /\
  returned mock_host 6 1%N (scripted (-3) [0; 0; 0; 0]) = Some JNI_ERR /\
  log_lines (calls mock_host 6 1%N (scripted (-3) [0; 0; 0; 0]))
    = [(7, "TetheringJni", "ERROR: GetEnv failed")] /\
  registration_calls (calls mock_host 6 1%N (scripted (-3) [0; 0; 0; 0])) = [].
Proof.
  split; [discriminate|].
  apply (JNI_OnLoad_GetEnv_failure mock_host (scripted (-3) [0; 0; 0; 0]) 1%N 6).
  - lia.
  - discriminate.
Defined.

(** ** Order of the calls and the handle they receive *)

(** C4.  In every run the first call is the [GetEnv] request; the
    registration calls made are an initial segment of the fixed sequence
    (utility, map, TC, coordinator), each made once and each given the
    handle [GetEnv] stored; a negative result is always the last one, so
    the segment ends with the first failing call; and when the handle was
    obtained and nothing failed the segment is the whole sequence. *)
Theorem registrations_in_order_with_one_handle {W} (host : Host W) (w : W)
    (vm : JavaVM) (fuel : nat) :
  (6 <= fuel)%nat ->
  hd_error (calls host fuel vm w) =
    Some (Invoked (GetEnv vm JNI_VERSION_1_6) (GetEnv_answer host vm w)) /\
  registration_calls (calls host fuel vm w) =
    firstn (List.length (registration_results (calls host fuel vm w)))
           (registration_sequence (GetEnv_env host vm w)) /\
  NoDup (registration_calls (calls host fuel vm w)) /\
  (forall (i : nat) (z : Z),
     nth_error (registration_results (calls host fuel vm w)) i = Some z ->
     z < 0 ->
     List.length (registration_results (calls host fuel vm w)) = S i) /\
  (GetEnv_status host vm w = JNI_OK ->
   Forall (fun z => 0 <= z) (registration_results (calls host fuel vm w)) ->
   List.length (registration_results (calls host fuel vm w)) = 4%nat).
Proof.
  intros Hfuel.
  assert (Hhd : hd_error (calls host fuel vm w) =
                Some (Invoked (GetEnv vm JNI_VERSION_1_6)
                              (GetEnv_answer host vm w))).
  { destruct (load_paths host w vm fuel Hfuel)
      as (a & tr & r & Ha & Htr & Hr & Hp).
    rewrite Ha, Htr. destruct Hp; reflexivity. }
  split; [exact Hhd|clear Hhd].
  by_paths host w vm fuel Hfuel;
    (split; [reflexivity|]);
    (split; [repeat constructor; cbn; intuition discriminate|]);
    (split; [intros [|[|[|[|[|i]]]]] z Hnth Hz; cbn in Hnth; tidy;
             solve [reflexivity | lia | destruct i; discriminate]|]);
    intros Hok Hall; tidy; try reflexivity; try contradiction; lia.
Qed.

Lemma registrations_in_order_with_one_handle_witness :
  registration_calls (calls mock_host 6 1%N (scripted JNI_OK [3; 0; -2; 0])) =
    [ register_com_android_networkstack_tethering_util_TetheringUtils 42%N;
      register_com_android_net_module_util_BpfMap 42%N
        "com/android/networkstack/tethering/util/BpfMap";
      register_com_android_net_module_util_TcUtils 42%N
        "com/android/networkstack/tethering/util/TcUtils" ].
Proof.
  refine (proj1 (proj2 (registrations_in_order_with_one_handle
                          mock_host (scripted JNI_OK [3; 0; -2; 0]) 1%N 6 _))).
  lia.
Defined.

(** ** Only the sign of a result matters *)

(** Turns what is known about the results into values of the test the
    function applies to them, and uses them in [H]. *)
Ltac signs_in H :=
  repeat match goal with
         | Hneg : ?z < 0 |- _ =>
             apply Z.ltb_lt in Hneg; rewrite ?Hneg in H; clear Hneg
         | Hpos : 0 <= ?z |- _ =>
             apply Z.ltb_ge in Hpos; rewrite ?Hpos in H; clear Hpos
         end.

(** Two runs, against any two hosts, that get the same answer from
    [GetEnv] and results of the same signs from the registration calls
    they make, return the same value and make the same registration
    calls. *)
Lemma same_signs_same_outcome {W W'} (host : Host W) (w : W) (vm : JavaVM)
    (fuel : nat) (host' : Host W') (w' : W') (vm' : JavaVM) (fuel' : nat) :
  (6 <= fuel)%nat ->
  (6 <= fuel')%nat ->
  GetEnv_answer host vm w = GetEnv_answer host' vm' w' ->
  map (fun z => z <? 0) (registration_results (calls host fuel vm w)) =
  map (fun z => z <? 0) (registration_results (calls host' fuel' vm' w')) ->
  returned host fuel vm w = returned host' fuel' vm' w' /\
  registration_calls (calls host fuel vm w) =
  registration_calls (calls host' fuel' vm' w').
Proof.
  intros Hfuel Hfuel' Hans Hsigns.
  by_paths host w vm fuel Hfuel; by_paths host' w' vm' fuel' Hfuel';
    inversion Hans; subst; try contradiction;
    signs_in Hsigns; try discriminate Hsigns; auto.
Qed.

(** C5.  A registration result is only tested for being negative.  In any
    run, a negative result, whatever its size, is the last one and the
    function returns [JNI_ERR]; a non-negative result, zero included, is
    followed by the next registration call or, after the fourth, by the
    return of [JNI_VERSION_1_6].  The returned value is one of the two
    constants, and a second run whose results have the same signs returns
    the same value after the same registration calls. *)
Theorem negative_is_the_sole_failure_signal {W W'} (host : Host W) (w : W)
    (vm : JavaVM) (fuel : nat)
    (host' : Host W') (w' : W') (vm' : JavaVM) (fuel' : nat) :
  (6 <= fuel)%nat ->
  (6 <= fuel')%nat ->
  (forall (k : nat) (z : Z),
     nth_error (registration_results (calls host fuel vm w)) k = Some z ->
     (z < 0 ->
      List.length (registration_results (calls host fuel vm w)) = S k /\
      returned host fuel vm w = Some JNI_ERR) /\
     (0 <= z ->
      (S k < List.length (registration_results (calls host fuel vm w)))%nat \/
      (S k = 4%nat /\ returned host fuel vm w = Some JNI_VERSION_1_6))) /\
  (returned host fuel vm w = Some JNI_ERR \/
   returned host fuel vm w = Some JNI_VERSION_1_6) /\
  (GetEnv_answer host vm w = GetEnv_answer host' vm' w' ->
   map (fun z => z <? 0) (registration_results (calls host fuel vm w)) =
   map (fun z => z <? 0) (registration_results (calls host' fuel' vm' w')) ->
   returned host fuel vm w = returned host' fuel' vm' w' /\
   registration_calls (calls host fuel vm w) =
   registration_calls (calls host' fuel' vm' w')).
Proof.
  intros Hfuel Hfuel'.
  split; [|split].
  - intros k z Hnth.
    by_paths host w vm fuel Hfuel;
      destruct k as [|[|[|[|k]]]]; cbn in Hnth; tidy;
      try (destruct k; discriminate Hnth);
      (split; intros Hz; [split; solve [reflexivity | lia]|]);
      solve [ left; lia | right; split; reflexivity | lia ].
  - by_paths host w vm fuel Hfuel; auto.
  - apply same_signs_same_outcome; assumption.
Qed.

Lemma negative_is_the_sole_failure_signal_witness :
  returned mock_host 6 1%N (scripted JNI_OK [0; 7; -1; 0]) =
  returned mock_host 9 2%N (scripted JNI_OK [2147483647; 0; -2147483648; -5]).
Proof.
  refine (proj1 (proj2 (proj2 (negative_is_the_sole_failure_signal
            mock_host (scripted JNI_OK [0; 7; -1; 0]) 1%N 6
            mock_host (scripted JNI_OK [2147483647; 0; -2147483648; -5]) 2%N 9
            _ _)) _ _)).
  - lia.
  - lia.
  - reflexivity.
  - reflexivity.
Defined.

(** ** The fifth routine *)

(** C6.  No run calls the registration routine declared for [BpfUtils];
    a run makes at most four registration calls, and a load that succeeds
    has made exactly the four of the fixed sequence. *)
Theorem BpfUtils_is_never_registered {W} (host : Host W) (w : W)
    (vm : JavaVM) (fuel : nat) :
  (6 <= fuel)%nat ->
  (forall env : JNIEnv,
     ~ In (register_com_android_networkstack_tethering_BpfUtils env)
          (registration_calls (calls host fuel vm w))) /\
  (List.length (registration_calls (calls host fuel vm w)) <= 4)%nat /\
  (returned host fuel vm w = Some JNI_VERSION_1_6 ->
   registration_calls (calls host fuel vm w) =
     registration_sequence (GetEnv_env host vm w) /\
   List.length (registration_calls (calls host fuel vm w)) = 4%nat).
Proof.
  intros Hfuel.
  by_paths host w vm fuel Hfuel;
    (split; [intros e Hin; intuition discriminate|]);
    (split; [lia|]);
    intros Hret; try discriminate Hret; split; reflexivity.
Qed.

Lemma BpfUtils_is_never_registered_witness :
  ~ In (register_com_android_networkstack_tethering_BpfUtils 42%N)
       (registration_calls (calls mock_host 6 1%N (scripted JNI_OK [0; 0; 0; 0]))).
Proof.
  refine (proj1 (BpfUtils_is_never_registered
                   mock_host (scripted JNI_OK [0; 0; 0; 0]) 1%N 6 _) 42%N).
  lia.
Defined.

(** ** Logging *)

(** C7.  The log lines of a run are the fatal [GetEnv] line when [GetEnv]
    did not answer [JNI_OK], and none otherwise.  In particular a run in
    which a registration call returned a negative value logs nothing, and
    all the loader learns is [JNI_ERR]. *)
Theorem log_only_when_GetEnv_fails {W} (host : Host W) (w : W)
    (vm : JavaVM) (fuel : nat) :
  (6 <= fuel)%nat ->
  log_lines (calls host fuel vm w) =
    (if GetEnv_status host vm w =? JNI_OK then [] else [GetEnv_failed_line]) /\
  (log_lines (calls host fuel vm w) <> [] -> GetEnv_status host vm w <> JNI_OK) /\
  (forall z : Z,
     In z (registration_results (calls host fuel vm w)) -> z < 0 ->
     log_lines (calls host fuel vm w) = [] /\
     returned host fuel vm w = Some JNI_ERR).
Proof.
  intros Hfuel.
  by_paths host w vm fuel Hfuel;
    (split; [first [ reflexivity
                   | destruct (Z.eqb_spec st JNI_OK);
                     [contradiction|reflexivity] ]|]);
    (split; [intros Hlog; solve [assumption | contradiction]|]);
    intros z Hin Hz; try contradiction;
    (split; [reflexivity|]); try reflexivity;
    intuition lia.
Qed.

Lemma log_only_when_GetEnv_fails_witness :
  log_lines (calls mock_host 6 1%N (scripted JNI_OK [0; 0; -4; 0])) = [] /\
  returned mock_host 6 1%N (scripted JNI_OK [0; 0; -4; 0]) = Some JNI_ERR.
Proof.
  refine (proj2 (proj2 (log_only_when_GetEnv_fails
                          mock_host (scripted JNI_OK [0; 0; -4; 0]) 1%N 6 _))
                (-4) _ _).
  - lia.
  - vm_compute. tauto.
  - lia.
Defined.

(** ** Repeated load attempts *)

(** C8.  Two runs of [JNI_OnLoad], against any hosts and for any VM
    handles, in which [GetEnv] gives the same answer and the registration
    calls return the same results one after the other, return the same
    value and make the same registration calls. *)
Theorem JNI_OnLoad_deterministic {W W'} (host : Host W) (w : W)
    (vm : JavaVM) (fuel : nat)
    (host' : Host W') (w' : W') (vm' : JavaVM) (fuel' : nat) :
  (6 <= fuel)%nat ->
  (6 <= fuel')%nat ->
  GetEnv_answer host vm w = GetEnv_answer host' vm' w' ->
  registration_results (calls host fuel vm w) =
  registration_results (calls host' fuel' vm' w') ->
  returned host fuel vm w = returned host' fuel' vm' w' /\
  registration_calls (calls host fuel vm w) =
  registration_calls (calls host' fuel' vm' w').
Proof.
  intros Hfuel Hfuel' Hans Hres.
  apply same_signs_same_outcome; try assumption.
  now rewrite Hres.
Qed.

Lemma JNI_OnLoad_deterministic_witness :
  returned mock_host 6 1%N (MkMock (JNI_OK, 42%N) 0 [0; -1; 3; 3]) =
  returned mock_host 8 5%N (MkMock (JNI_OK, 42%N) 9 [0; -1; 8; -8]) /\
  registration_calls
    (calls mock_host 6 1%N (MkMock (JNI_OK, 42%N) 0 [0; -1; 3; 3])) =
  registration_calls
    (calls mock_host 8 5%N (MkMock (JNI_OK, 42%N) 9 [0; -1; 8; -8])).
Proof.
  apply (JNI_OnLoad_deterministic
           mock_host (MkMock (JNI_OK, 42%N) 0 [0; -1; 3; 3]) 1%N 6
           mock_host (MkMock (JNI_OK, 42%N) 9 [0; -1; 8; -8]) 5%N 8).
  - lia.
  - lia.
  - reflexivity.
  - reflexivity.
Defined.

(** Against the scripted host the results of a run are read off the
    script, whatever the VM handle and the logger's answer. *)
Ltac mock_call :=
  rewrite run_call;
  cbn [respond mock_host mock_respond next_result script fst snd
       getenv_answer log_answer].

Lemma mock_results (vm : JavaVM) (env : JNIEnv) (l : Z) (sc : list Z)
    (fuel : nat) :
  (6 <= fuel)%nat ->
  registration_results (calls mock_host fuel vm (MkMock (JNI_OK, env) l sc)) =
  results_until_failure 4 sc.
Proof.
  intros Hfuel.
  do 6 (destruct fuel as [|fuel]; [lia|]). clear Hfuel.
  unfold calls, JNI_OnLoad.
  mock_call. cbn [negb Z.eqb JNI_OK].
  destruct sc as [|z1 sc]; [reflexivity|].
  mock_call. destruct (z1 <? 0) eqn:E1; [cbn; rewrite E1; reflexivity|].
  destruct sc as [|z2 sc]; [cbn; rewrite E1; reflexivity|].
  mock_call. destruct (z2 <? 0) eqn:E2; [cbn; rewrite E1, E2; reflexivity|].
  destruct sc as [|z3 sc]; [cbn; rewrite E1, E2; reflexivity|].
  mock_call.
  destruct (z3 <? 0) eqn:E3; [cbn; rewrite E1, E2, E3; reflexivity|].
  destruct sc as [|z4 sc]; [cbn; rewrite E1, E2, E3; reflexivity|].
  mock_call.
  destruct (z4 <? 0) eqn:E4; cbn; rewrite E1, E2, E3, E4; reflexivity.
Qed.

(** Hence two load attempts against mocks with the same [GetEnv] answer
    and the same script agree, even when everything else differs. *)
Lemma scripted_runs_agree (a : jint * JNIEnv) (sc : list Z)
    (vm vm' : JavaVM) (l l' : Z) (fuel fuel' : nat) :
  (6 <= fuel)%nat ->
  (6 <= fuel')%nat ->
  returned mock_host fuel vm (MkMock a l sc) =
  returned mock_host fuel' vm' (MkMock a l' sc) /\
  registration_calls (calls mock_host fuel vm (MkMock a l sc)) =
  registration_calls (calls mock_host fuel' vm' (MkMock a l' sc)).
Proof.
  intros Hfuel Hfuel'.
  apply same_signs_same_outcome; try assumption; [reflexivity|].
  destruct a as [st env].
  destruct (Z.eq_dec st JNI_OK) as [->|Hst].
  - now rewrite !mock_results.
  - assert (Hno : forall v k f, (6 <= f)%nat ->
              registration_results (calls mock_host f v (MkMock (st, env) k sc))
              = []).
    { intros v k f Hf.
      destruct (load_paths mock_host (MkMock (st, env) k sc) v f Hf)
        as (b & tr & r & Hb & Htr & _ & Hp).
      rewrite Htr. cbv in Hb. subst b.
      inversion Hp; subst; try reflexivity; congruence. }
    now rewrite !Hno.
Qed.

(** ** Class names *)

(** C9.  Whenever the map routine is called its class name is
    com/android/networkstack/tethering/util/BpfMap, and whenever the TC
    routine is called its class name is
    com/android/networkstack/tethering/util/TcUtils; a load that succeeds
    has called both, with the handle [GetEnv] stored. *)
Theorem class_names_are_fixed {W} (host : Host W) (w : W)
    (vm : JavaVM) (fuel : nat) :
  (6 <= fuel)%nat ->
  (forall (env : JNIEnv) (name : string),
     In (register_com_android_net_module_util_BpfMap env name)
        (registration_calls (calls host fuel vm w)) ->
     name = "com/android/networkstack/tethering/util/BpfMap") /\
  (forall (env : JNIEnv) (name : string),
     In (register_com_android_net_module_util_TcUtils env name)
        (registration_calls (calls host fuel vm w)) ->
     name = "com/android/networkstack/tethering/util/TcUtils") /\
  (returned host fuel vm w = Some JNI_VERSION_1_6 ->
   In (register_com_android_net_module_util_BpfMap (GetEnv_env host vm w)
         "com/android/networkstack/tethering/util/BpfMap")
      (registration_calls (calls host fuel vm w)) /\
   In (register_com_android_net_module_util_TcUtils (GetEnv_env host vm w)
         "com/android/networkstack/tethering/util/TcUtils")
      (registration_calls (calls host fuel vm w))).
Proof.
  intros Hfuel.
  by_paths host w vm fuel Hfuel;
    (split; [intros e n Hin;
             repeat (destruct Hin as [Hin|Hin];
                     [try discriminate Hin; now inversion Hin|]);
             contradiction|]);
    (split; [intros e n Hin;
             repeat (destruct Hin as [Hin|Hin];
                     [try discriminate Hin; now inversion Hin|]);
             contradiction|]);
    intros Hret; try discriminate Hret; split; auto.
Qed.

Lemma class_names_are_fixed_witness :
  In (register_com_android_net_module_util_BpfMap 42%N
        "com/android/networkstack/tethering/util/BpfMap")
     (registration_calls (calls mock_host 6 1%N (scripted JNI_OK [0; 0; 0; 0]))) /\
  In (register_com_android_net_module_util_TcUtils 42%N
        "com/android/networkstack/tethering/util/TcUtils")
     (registration_calls (calls mock_host 6 1%N (scripted JNI_OK [0; 0; 0; 0]))).
Proof.
  refine (proj2 (proj2 (class_names_are_fixed
                          mock_host (scripted JNI_OK [0; 0; 0; 0]) 1%N 6 _)) _).
  - lia.
  - reflexivity.
Defined.

(** ** Which [GetEnv] answers count as failure *)

(** C10.  The first call of every run is [GetEnv] for [JNI_VERSION_1_6].
    Registration calls are made exactly when its status is [JNI_OK]; for
    any other status, whichever it is, the run consists of that request
    and the fatal log line, and returns [JNI_ERR]. *)
Theorem any_status_but_JNI_OK_fails {W} (host : Host W) (w : W)
    (vm : JavaVM) (fuel : nat) :
  (6 <= fuel)%nat ->
  hd_error (calls host fuel vm w) =
    Some (Invoked (GetEnv vm JNI_VERSION_1_6) (GetEnv_answer host vm w)) /\
  (registration_calls (calls host fuel vm w) <> [] <->
   GetEnv_status host vm w = JNI_OK) /\
  (GetEnv_status host vm w = JNI_OK ->
   log_lines (calls host fuel vm w) = [] /\
   hd_error (registration_calls (calls host fuel vm w)) =
     Some (register_com_android_networkstack_tethering_util_TetheringUtils
             (GetEnv_env host vm w))) /\
  (GetEnv_status host vm w <> JNI_OK ->
   returned host fuel vm w = Some JNI_ERR /\
   List.length (calls host fuel vm w) = 2%nat /\
   log_lines (calls host fuel vm w) = [GetEnv_failed_line] /\
   registration_calls (calls host fuel vm w) = []).
Proof.
  intros Hfuel.
  assert (Hhd : hd_error (calls host fuel vm w) =
                Some (Invoked (GetEnv vm JNI_VERSION_1_6)
                              (GetEnv_answer host vm w))).
  { destruct (load_paths host w vm fuel Hfuel)
      as (a & tr & r & Ha & Htr & Hr & Hp).
    rewrite Ha, Htr. destruct Hp; reflexivity. }
  split; [exact Hhd|clear Hhd].
  by_paths host w vm fuel Hfuel;
    (split; [split; intros Hx; solve [reflexivity | congruence]|]);
    (split; [intros Hok; solve [contradiction | split; reflexivity]|]);
    intros Hst; solve [congruence | repeat split].
Qed.

Lemma any_status_but_JNI_OK_fails_witness :
  returned mock_host 6 1%N (scripted (-2) [0; 0; 0; 0]) = Some JNI_ERR /\
  List.length (calls mock_host 6 1%N (scripted (-2) [0; 0; 0; 0])) = 2%nat /\
  log_lines (calls mock_host 6 1%N (scripted (-2) [0; 0; 0; 0]))
    = [GetEnv_failed_line] /\
  registration_calls (calls mock_host 6 1%N (scripted (-2) [0; 0; 0; 0])) = [].
Proof.
  refine (proj2 (proj2 (proj2 (any_status_but_JNI_OK_fails
                   mock_host (scripted (-2) [0; 0; 0; 0]) 1%N 6 _))) _).
  - lia.
  - discriminate.
Defined.

(** * Further properties of [JNI_OnLoad] *)

(** ** What the returned value tells the loader *)

(** X1.  The returned value decides the outcome both ways.
    [JNI_VERSION_1_6] comes back exactly when [GetEnv] answered [JNI_OK]
    and four registration calls were made, none with a negative result;
    [JNI_ERR] comes back exactly when [GetEnv] did not answer [JNI_OK] or
    some registration call returned a negative value. *)
Theorem returned_value_decides_outcome {W} (host : Host W) (w : W)
    (vm : JavaVM) (fuel : nat) :
  (6 <= fuel)%nat ->
  (returned host fuel vm w = Some JNI_VERSION_1_6 <->
   GetEnv_status host vm w = JNI_OK /\
   List.length (registration_results (calls host fuel vm w)) = 4%nat /\
   Forall (fun z => 0 <= z) (registration_results (calls host fuel vm w))) /\
  (returned host fuel vm w = Some JNI_ERR <->
   GetEnv_status host vm w <> JNI_OK \/
   exists z : Z,
     In z (registration_results (calls host fuel vm w)) /\ z < 0).
Proof.
  intros Hfuel.
  split; split.
  - intros Hret.
    by_paths host w vm fuel Hfuel; try discriminate Hret;
      repeat split; repeat constructor; assumption.
  - intros (Hok & Hlen & Hall).
    by_paths host w vm fuel Hfuel;
      try contradiction; try discriminate Hlen; try reflexivity;
      tidy; lia.
  - intros Hret.
    by_paths host w vm fuel Hfuel; try discriminate Hret;
      first [ left; assumption
            | right;
              match goal with
              | Hneg : ?r < 0 |- _ =>
                  exists r; split; [cbn; tauto | exact Hneg]
              end ].
  - intros [Hst | (z & Hin & Hz)];
      by_paths host w vm fuel Hfuel;
      try reflexivity; try contradiction; intuition (subst; lia).
Qed.

Lemma returned_value_decides_outcome_witness :
  GetEnv_status mock_host 1%N (scripted JNI_OK [1; 2; 3; 4]) = JNI_OK /\
  List.length
    (registration_results (calls mock_host 6 1%N (scripted JNI_OK [1; 2; 3; 4])))
    = 4%nat /\
  Forall (fun z => 0 <= z)
    (registration_results (calls mock_host 6 1%N (scripted JNI_OK [1; 2; 3; 4]))).
Proof.
  refine (proj1 (proj1 (returned_value_decides_outcome
                          mock_host (scripted JNI_OK [1; 2; 3; 4]) 1%N 6 _)) _).
  - lia.
  - reflexivity.
Defined.

(** ** The call log as a whole *)

(** X2.  Every run asks for the environment exactly once, on the VM
    handle it was given and for [JNI_VERSION_1_6], which is also the value
    a successful load returns.  Apart from that request the log holds
    nothing but log lines and registration calls, between two and five
    calls in all, and a registration call that returned a negative value
    is the last entry of the log: nothing is undone, retried or reported
    after it. *)
Theorem call_log_shape {W} (host : Host W) (w : W) (vm : JavaVM)
    (fuel : nat) :
  (6 <= fuel)%nat ->
  GetEnv_requests (calls host fuel vm w) = [(vm, JNI_VERSION_1_6)] /\
  List.length (calls host fuel vm w) =
    (1 + List.length (log_lines (calls host fuel vm w))
       + List.length (registration_calls (calls host fuel vm w)))%nat /\
  (2 <= List.length (calls host fuel vm w) <= 5)%nat /\
  (forall v : jint,
     returned host fuel vm w = Some v -> v <> JNI_ERR ->
     GetEnv_requests (calls host fuel vm w) = [(vm, v)]) /\
  (forall (i : nat) (inv : invocation) (z : Z),
     nth_error (calls host fuel vm w) i = Some inv ->
     registration_result inv = Some z ->
     z < 0 ->
     List.length (calls host fuel vm w) = S i).
Proof.
  intros Hfuel.
  by_paths host w vm fuel Hfuel;
    (split; [reflexivity|]);
    (split; [reflexivity|]);
    (split; [lia|]);
    (split; [intros v Hv Hne; inversion Hv; subst;
             solve [contradiction | reflexivity]|]);
    intros [|[|[|[|[|i]]]]] inv z Hnth Hres Hz; cbn in Hnth;
    try (destruct i; discriminate Hnth);
    inversion Hnth; subst inv; cbn in Hres;
    solve [ discriminate Hres
          | reflexivity
          | inversion Hres; subst; lia ].
Qed.

Lemma call_log_shape_witness :
  List.length (calls mock_host 6 1%N (scripted JNI_OK [0; 0; -3; 9])) = 4%nat.
Proof.
  refine (proj2 (proj2 (proj2 (proj2 (call_log_shape
            mock_host (scripted JNI_OK [0; 0; -3; 9]) 1%N 6 _))))
            3%nat
            (Invoked (register_com_android_net_module_util_TcUtils 42%N
                        "com/android/networkstack/tethering/util/TcUtils")
                     (-3))
            (-3) _ _ _).
  - lia.
  - reflexivity.
  - reflexivity.
  - lia.
Defined.

(** ** Against a script *)

(** X3.  When the registration routines answer from a script and
    [GetEnv] answers [JNI_OK], the load consumes the script entry by
    entry up to and including the first negative one, four at most, and
    leaves the rest of the script with the host; it returns
    [JNI_VERSION_1_6] exactly when none of the first four entries is
    negative (a script shorter than four is filled up with zeros). *)
Theorem scripted_load_consumes_a_prefix (vm : JavaVM) (env : JNIEnv)
    (l : Z) (sc : list Z) (fuel : nat) :
  (6 <= fuel)%nat ->
  registration_results (calls mock_host fuel vm (MkMock (JNI_OK, env) l sc)) =
    results_until_failure 4 sc /\
  option_map script (final_state mock_host fuel vm (MkMock (JNI_OK, env) l sc)) =
    Some (skipn (List.length (results_until_failure 4 sc)) sc) /\
  returned mock_host fuel vm (MkMock (JNI_OK, env) l sc) =
    Some (if forallb (fun z => 0 <=? z) (firstn 4 sc)
          then JNI_VERSION_1_6 else JNI_ERR).
Proof.
  intros Hfuel.
  do 6 (destruct fuel as [|fuel]; [lia|]). clear Hfuel.
  assert (Hsign : forall z, (z <? 0) = false -> (0 <=? z) = true)
    by (intros z Hz; apply Z.ltb_ge in Hz; now apply Z.leb_le).
  assert (Hsign' : forall z, (z <? 0) = true -> (0 <=? z) = false)
    by (intros z Hz; apply Z.ltb_lt in Hz; apply Z.leb_gt; exact Hz).
  unfold calls, final_state, returned, JNI_OnLoad.
  mock_call. cbn [negb Z.eqb JNI_OK].
  destruct sc as [|z1 sc]; [repeat split|].
  mock_call. destruct (z1 <? 0) eqn:E1;
    [cbn; rewrite E1, (Hsign' _ E1); repeat split|].
  destruct sc as [|z2 sc];
    [cbn; rewrite E1, (Hsign _ E1); repeat split|].
  mock_call. destruct (z2 <? 0) eqn:E2;
    [cbn; rewrite E1, E2, (Hsign _ E1), (Hsign' _ E2); repeat split|].
  destruct sc as [|z3 sc];
    [cbn; rewrite E1, E2, (Hsign _ E1), (Hsign _ E2); repeat split|].
  mock_call. destruct (z3 <? 0) eqn:E3;
    [cbn; rewrite E1, E2, E3, (Hsign _ E1), (Hsign _ E2), (Hsign' _ E3);
     repeat split|].
  destruct sc as [|z4 sc];
    [cbn; rewrite E1, E2, E3, (Hsign _ E1), (Hsign _ E2), (Hsign _ E3);
     repeat split|].
  mock_call.
  destruct (z4 <? 0) eqn:E4; cbn;
    rewrite E1, E2, E3, E4, (Hsign _ E1), (Hsign _ E2), (Hsign _ E3);
    [rewrite (Hsign' _ E4) | rewrite (Hsign _ E4)]; repeat split.
Qed.

Lemma scripted_load_consumes_a_prefix_witness :
  option_map script
    (final_state mock_host 6 1%N (MkMock (JNI_OK, 42%N) 0 [5; -6; 7; -8; 9])) =
  Some [7; -8; 9].
Proof.
  refine (proj1 (proj2 (scripted_load_consumes_a_prefix
                          1%N 42%N 0 [5; -6; 7; -8; 9] 6 _))).
  lia.
Defined.
